(** * A shallow embedding of vw/Plate/RemoteIndex.cc

    The client side of the remote platefile index: the URL parser
    [parse_url], the two constructors (open and create), the
    write-update batching queue and the RPC-issuing methods.

    The AMQP transport and the index service are external to this file:
    the service is a function from the requests received so far and the
    current request to its reply, and every RPC issued by the client is
    appended to an outbound record [sent], in issue order. *)

From Stdlib Require Import String Ascii ZArith List Bool Lia.
Import ListNotations.
Open Scope Z_scope.

(* ------------------------------------------------------------------ *)
(** ** Errors and results *)

Inductive Error :=
| ArgumentErr (msg : string)   (** [vw::ArgumentErr] thrown by [vw_throw] *)
| BadLexicalCast.              (** [boost::bad_lexical_cast] *)

Inductive Result (A : Type) :=
| Ok (a : A)
| Err (e : Error).
Arguments Ok {A} a.
Arguments Err {A} e.

(* ------------------------------------------------------------------ *)
(** ** String helpers used by [parse_url] *)

Module Str.

(** [boost::split(v, s, boost::is_any_of(c))] with a single separator and
    token compression off: empty tokens are kept, so the result always
    has one more element than [s] has separators. *)
Fixpoint split (c : ascii) (s : string) : list string :=
  match s with
  | EmptyString => [EmptyString]
  | String a s' =>
      let rest := split c s' in
      if Ascii.eqb a c then EmptyString :: rest
      else match rest with
           | tok :: toks => String a tok :: toks
           | [] => [String a EmptyString]
           end
  end.

(** [std::string::substr(n)]. *)
Definition substr_from (n : nat) (s : string) : string :=
  substring n (String.length s - n) s.

(** [std::string::find(pat)]: position of the first occurrence. *)
Definition find (pat s : string) : option nat := index 0 pat s.

(** Number of occurrences of a character. *)
Fixpoint count (c : ascii) (s : string) : nat :=
  match s with
  | EmptyString => 0
  | String a s' => (if Ascii.eqb a c then 1 else 0) + count c s'
  end%nat.

Definition digit_val (a : ascii) : option Z :=
  let n := nat_of_ascii a in
  if (48 <=? n)%nat && (n <=? 57)%nat then Some (Z.of_nat n - 48) else None.

Fixpoint digits_acc (acc : Z) (s : string) : option Z :=
  match s with
  | EmptyString => Some acc
  | String a s' =>
      match digit_val a with
      | Some d => digits_acc (acc * 10 + d) s'
      | None => None
      end
  end.

Definition digits (s : string) : option Z :=
  match s with
  | EmptyString => None
  | _ => digits_acc 0 s
  end.

Definition int_min : Z := - 2 ^ 31.
Definition int_max : Z := 2 ^ 31 - 1.

(** [boost::lexical_cast<int>(s)] on a [std::string]: an optional sign
    followed by at least one decimal digit and nothing else, with a value
    representable in a 32-bit [int]; anything else raises
    [boost::bad_lexical_cast]. *)
Definition lexical_cast_int (s : string) : option Z :=
  let v := match s with
           | String "-"%char r => option_map Z.opp (digits r)
           | String "+"%char r => digits r
           | _ => digits s
           end in
  match v with
  | Some z => if (int_min <=? z) && (z <=? int_max) then Some z else None
  | None => None
  end.

End Str.

(* ------------------------------------------------------------------ *)
(** ** [parse_url] *)

(** The four output parameters [hostname], [port], [exchange] and
    [platefile_name], returned as a tuple. *)
Definition Address : Type := (string * Z * string * string)%type.

Definition parse_url (url : string) : Result Address :=
  match Str.find "pf://" url with
  | Some 0%nat =>
      let substr := Str.substr_from 5 url in
      let split_vec := Str.split "/"%char substr in
      match split_vec with
      | [routing_key; platefile_name] =>
          Ok ("localhost"%string, 5672, routing_key, platefile_name)
      | [host_port; exchange; platefile_name] =>
          match Str.split ":"%char host_port with
          | [hostname] => Ok (hostname, 5672, exchange, platefile_name)
          | [hostname; port_str] =>
              match Str.lexical_cast_int port_str with
              | Some port => Ok (hostname, port, exchange, platefile_name)
              | None => Err BadLexicalCast
              end
          | _ => Err (ArgumentErr ("RemoteIndex::parse_url() -- could not parse hostname and port from URL string: " ++ url))
          end
      | _ => Err (ArgumentErr ("RemoteIndex::parse_url() -- could not parse URL string: " ++ url))
      end
  | _ => Err (ArgumentErr ("RemoteIndex::parse_url() -- this does not appear to be a well-formed URL: " ++ url))
  end.

(* ------------------------------------------------------------------ *)
(** ** Protocol messages (ProtoBuffers.proto) *)

Record IndexHeader := {
  platefile_id : Z;
  tile_size : Z;
  tile_filetype : string;
  pixel_format : Z;
  channel_type : Z;
  version : Z }.

(** [index_header_info.set_platefile_id(v)]. *)
Definition set_platefile_id (v : Z) (h : IndexHeader) : IndexHeader :=
  {| platefile_id := v; tile_size := tile_size h; tile_filetype := tile_filetype h;
     pixel_format := pixel_format h; channel_type := channel_type h;
     version := version h |}.

Record IndexRecord := {
  blob_id : Z;
  blob_offset : Z;
  record_size : Z;
  status : Z }.

Record TileHeader := {
  col : Z;
  row : Z;
  level : Z;
  transaction_id : Z;
  filetype : string }.

Record IndexWriteUpdate := {
  wu_platefile_id : Z;
  header : TileHeader;
  record : IndexRecord }.

(** Protobuf default instances: what an accessor returns when the reply
    does not carry the field. *)
Definition default_header : IndexHeader :=
  {| platefile_id := 0; tile_size := 0; tile_filetype := ""; pixel_format := 0;
     channel_type := 0; version := 0 |}.
Definition default_record : IndexRecord :=
  {| blob_id := 0; blob_offset := 0; record_size := 0; status := 0 |}.

(** One constructor per request message; each is sent by exactly one
    stub method ([OpenRequest], [CreateRequest], [ReadRequest], ...). *)
Inductive Request :=
| IndexOpenRequest (plate_name : string)
| IndexCreateRequest (plate_name : string) (index_header : IndexHeader)
| IndexReadRequest (pid c r l tid : Z) (exact_transaction_match : bool)
| IndexMultiReadRequest (pid c r l begin_tid end_tid : Z)
| IndexWriteRequest (pid size : Z)
| IndexMultiWriteUpdate (write_updates : list IndexWriteUpdate)
| IndexWriteComplete (pid blob : Z) (offset : Z)
| IndexValidTilesRequest (pid l region_col region_row region_width region_height
                          begin_tid end_tid min_num_matches : Z)
| IndexNumLevelsRequest (pid : Z)
| IndexTransactionRequest (pid : Z) (description : string) (transaction_id_override : Z)
| IndexTransactionComplete (pid tid : Z) (update_read_cursor : bool)
| IndexTransactionFailed (pid tid : Z)
| IndexTransactionCursorRequest (pid : Z).

Inductive Reply :=
| IndexOpenReply (index_header : IndexHeader) (short_plate_filename full_plate_filename : string)
| IndexReadReply (index_record : IndexRecord)
| IndexMultiReadReply (transaction_ids : list Z) (index_records : list IndexRecord)
| IndexWriteReply (blob : Z)
| IndexValidTilesReply (tile_headers : list TileHeader)
| IndexNumLevelsReply (num_levels : Z)
| IndexTransactionReply (tid : Z)
| IndexTransactionCursorReply (tid : Z)
| RpcNullMessage.

(** Field accessors of the replies; a reply of another shape leaves the
    response object at its defaults. *)
Definition reply_index_header (r : Reply) : IndexHeader :=
  match r with IndexOpenReply h _ _ => h | _ => default_header end.
Definition reply_short_plate_filename (r : Reply) : string :=
  match r with IndexOpenReply _ s _ => s | _ => "" end.
Definition reply_full_plate_filename (r : Reply) : string :=
  match r with IndexOpenReply _ _ f => f | _ => "" end.
Definition reply_index_record (r : Reply) : IndexRecord :=
  match r with IndexReadReply x => x | _ => default_record end.
Definition reply_transaction_ids (r : Reply) : list Z :=
  match r with IndexMultiReadReply t _ => t | _ => [] end.
Definition reply_index_records (r : Reply) : list IndexRecord :=
  match r with IndexMultiReadReply _ x => x | _ => [] end.
Definition reply_blob_id (r : Reply) : Z :=
  match r with IndexWriteReply b => b | _ => 0 end.
Definition reply_tile_headers (r : Reply) : list TileHeader :=
  match r with IndexValidTilesReply t => t | _ => [] end.
Definition reply_num_levels (r : Reply) : Z :=
  match r with IndexNumLevelsReply n => n | _ => 0 end.
Definition reply_transaction_id (r : Reply) : Z :=
  match r with IndexTransactionReply t | IndexTransactionCursorReply t => t | _ => 0 end.

(** [BBox2i]: an integer box given by its min and max corners. *)
Record BBox2i := { min_x : Z; min_y : Z; max_x : Z; max_y : Z }.
Definition bbox_width (b : BBox2i) : Z := max_x b - min_x b.
Definition bbox_height (b : BBox2i) : Z := max_y b - min_y b.

(* ------------------------------------------------------------------ *)
(** ** Client state *)

(** The members of [RemoteIndex], plus [sent]: the requests issued over
    the bound RPC controller so far, oldest first. [m_write_queue] is the
    [std::queue<IndexWriteUpdate>], front first. *)
Record RemoteIndex := {
  m_hostname : string;
  m_port : Z;
  m_routing_key : string;
  m_queue_name : string;
  m_index_header : IndexHeader;
  m_platefile_id : Z;
  m_short_plate_filename : string;
  m_full_plate_filename : string;
  m_write_queue : list IndexWriteUpdate;
  sent : list Request }.

Definition set_write_queue (q : list IndexWriteUpdate) (s : RemoteIndex) : RemoteIndex :=
  {| m_hostname := m_hostname s; m_port := m_port s; m_routing_key := m_routing_key s;
     m_queue_name := m_queue_name s; m_index_header := m_index_header s;
     m_platefile_id := m_platefile_id s;
     m_short_plate_filename := m_short_plate_filename s;
     m_full_plate_filename := m_full_plate_filename s;
     m_write_queue := q; sent := sent s |}.

Definition set_sent (l : list Request) (s : RemoteIndex) : RemoteIndex :=
  {| m_hostname := m_hostname s; m_port := m_port s; m_routing_key := m_routing_key s;
     m_queue_name := m_queue_name s; m_index_header := m_index_header s;
     m_platefile_id := m_platefile_id s;
     m_short_plate_filename := m_short_plate_filename s;
     m_full_plate_filename := m_full_plate_filename s;
     m_write_queue := m_write_queue s; sent := l |}.

(** The members set from an open/create reply. *)
Definition set_from_reply (resp : Reply) (s : RemoteIndex) : RemoteIndex :=
  {| m_hostname := m_hostname s; m_port := m_port s; m_routing_key := m_routing_key s;
     m_queue_name := m_queue_name s;
     m_index_header := reply_index_header resp;
     m_platefile_id := platefile_id (reply_index_header resp);
     m_short_plate_filename := reply_short_plate_filename resp;
     m_full_plate_filename := reply_full_plate_filename resp;
     m_write_queue := m_write_queue s; sent := sent s |}.

(** A state monad over the client. *)
Definition M (A : Type) : Type := RemoteIndex -> A * RemoteIndex.
Definition ret {A} (a : A) : M A := fun s => (a, s).
Definition bind {A B} (m : M A) (k : A -> M B) : M B :=
  fun s => let (a, s') := m s in k a s'.
Definition get : M RemoteIndex := fun s => (s, s).
Definition put (s : RemoteIndex) : M unit := fun _ => (tt, s).

Notation "x <- m ;; k" := (bind m (fun x => k)) (at level 61, m at next level, right associativity).
Notation "m ;;; k" := (bind m (fun _ => k)) (at level 61, right associativity).

Section Client.

(** The index service: its reply to a request, given the requests this
    client has issued before it. *)
Variable service : list Request -> Request -> Reply.

(** [AmqpRpcClient::UniqueQueueName]: an external name generator. *)
Variable UniqueQueueName : string -> string.

(** [m_index_service->Xxx(m_rpc_controller.get(), &request, &response, ...)]:
    the request is issued and the call blocks until its reply arrives. *)
Definition rpc (req : Request) : M Reply :=
  fun s => (service (sent s) req, set_sent (sent s ++ [req]) s).

(** The [while (m_write_queue.size() > 0)] loop of [flush_write_queue]:
    each iteration adds the front of the queue to the request and pops it. *)
Fixpoint drain (request : list IndexWriteUpdate) (q : list IndexWriteUpdate)
  : list IndexWriteUpdate * list IndexWriteUpdate :=
  match q with
  | [] => (request, [])
  | front :: rest => drain (request ++ [front]) rest
  end.

Definition flush_write_queue : M unit :=
  s <- get ;;
  let (request, q) := drain [] (m_write_queue s) in
  put (set_write_queue q s) ;;;
  rpc (IndexMultiWriteUpdate request) ;;;
  ret tt.

(** Destructor. *)
Definition destroy : M unit := flush_write_queue.

Definition read_request (c r l tid : Z) (exact_transaction_match : bool) : M IndexRecord :=
  flush_write_queue ;;;
  s <- get ;;
  response <- rpc (IndexReadRequest (m_platefile_id s) c r l tid exact_transaction_match) ;;
  ret (reply_index_record response).

(** The result loop [for (i = 0; i < transaction_ids_size(); ++i)];
    [index_records().Get(i)] past the end is not defined by the code and
    is given the default record here. *)
Definition multi_read_request (c r l begin_tid end_tid : Z) : M (list (Z * IndexRecord)) :=
  flush_write_queue ;;;
  s <- get ;;
  response <- rpc (IndexMultiReadRequest (m_platefile_id s) c r l begin_tid end_tid) ;;
  let recs := reply_index_records response in
  ret (List.map (fun '(i, t) => (t, nth i recs default_record))
                (combine (seq 0 (length (reply_transaction_ids response)))
                         (reply_transaction_ids response))).

Definition write_request (size : Z) : M Z :=
  s <- get ;;
  response <- rpc (IndexWriteRequest (m_platefile_id s) size) ;;
  ret (reply_blob_id response).

Definition max_pending_write_updates : nat := 10.

Definition write_update (h : TileHeader) (rec : IndexRecord) : M unit :=
  s <- get ;;
  let request := {| wu_platefile_id := m_platefile_id s; header := h; record := rec |} in
  put (set_write_queue (m_write_queue s ++ [request]) s) ;;;
  s' <- get ;;
  if (max_pending_write_updates <=? length (m_write_queue s'))%nat
  then flush_write_queue
  else ret tt.

Definition write_complete (blob : Z) (offset : Z) : M unit :=
  flush_write_queue ;;;
  s <- get ;;
  rpc (IndexWriteComplete (m_platefile_id s) blob offset) ;;;
  ret tt.

Definition valid_tiles (l : Z) (region : BBox2i) (begin_tid end_tid min_num_matches : Z)
  : M (list TileHeader) :=
  flush_write_queue ;;;
  s <- get ;;
  response <- rpc (IndexValidTilesRequest (m_platefile_id s) l (min_x region) (min_y region)
                     (bbox_width region) (bbox_height region)
                     begin_tid end_tid min_num_matches) ;;
  ret (reply_tile_headers response).

Definition num_levels : M Z :=
  flush_write_queue ;;;
  s <- get ;;
  response <- rpc (IndexNumLevelsRequest (m_platefile_id s)) ;;
  ret (reply_num_levels response).

Definition transaction_request (description : string) (transaction_id_override : Z) : M Z :=
  s <- get ;;
  response <- rpc (IndexTransactionRequest (m_platefile_id s) description transaction_id_override) ;;
  ret (reply_transaction_id response).

Definition transaction_complete (tid : Z) (update_read_cursor : bool) : M unit :=
  flush_write_queue ;;;
  s <- get ;;
  rpc (IndexTransactionComplete (m_platefile_id s) tid update_read_cursor) ;;;
  ret tt.

Definition transaction_failed (tid : Z) : M unit :=
  flush_write_queue ;;;
  s <- get ;;
  rpc (IndexTransactionFailed (m_platefile_id s) tid) ;;;
  ret tt.

Definition transaction_cursor : M Z :=
  s <- get ;;
  response <- rpc (IndexTransactionCursorRequest (m_platefile_id s)) ;;
  ret (reply_transaction_id response).

(** The state right after the connection is set up and the service is
    bound, before the open/create request: the queue is empty and no
    request has been issued yet. *)
Definition connected (addr : Address) (hdr : IndexHeader) : RemoteIndex :=
  let '(hostname, port, routing_key, platefile_name) := addr in
  {| m_hostname := hostname; m_port := port; m_routing_key := routing_key;
     m_queue_name := UniqueQueueName ("remote_index_" ++ platefile_name);
     m_index_header := hdr; m_platefile_id := 0;
     m_short_plate_filename := ""; m_full_plate_filename := "";
     m_write_queue := []; sent := [] |}.

Definition addr_platefile_name (addr : Address) : string :=
  let '(_, _, _, platefile_name) := addr in platefile_name.

(** Constructor (for opening an existing Index). *)
Definition open_index (url : string) : Result RemoteIndex :=
  match parse_url url with
  | Err e => Err e
  | Ok addr =>
      let s0 := connected addr default_header in
      let (response, s1) := rpc (IndexOpenRequest (addr_platefile_name addr)) s0 in
      Ok (set_from_reply response s1)
  end.

(** Constructor (for creating a new Index); [m_index_header] is first
    initialised from the caller's header. *)
Definition create_index (url : string) (index_header_info : IndexHeader) : Result RemoteIndex :=
  match parse_url url with
  | Err e => Err e
  | Ok addr =>
      let s0 := connected addr index_header_info in
      let index_header_info := set_platefile_id 0 index_header_info in
      let request := IndexCreateRequest (addr_platefile_name addr) index_header_info in
      let (response, s1) := rpc request s0 in
      Ok (set_from_reply response s1)
  end.

(** The public operations of the client other than the constructors,
    the destructor and the accessors of the cached header. *)
Inductive Call :=
| CReadRequest (c r l tid : Z) (exact : bool)
| CMultiReadRequest (c r l begin_tid end_tid : Z)
| CWriteRequest (size : Z)
| CWriteUpdate (h : TileHeader) (rec : IndexRecord)
| CWriteComplete (blob offset : Z)
| CValidTiles (l : Z) (region : BBox2i) (begin_tid end_tid min_num_matches : Z)
| CNumLevels
| CTransactionRequest (description : string) (override : Z)
| CTransactionComplete (tid : Z) (update_read_cursor : bool)
| CTransactionFailed (tid : Z)
| CTransactionCursor.

Definition run_call (call : Call) : M unit :=
  match call with
  | CReadRequest c r l tid e => read_request c r l tid e ;;; ret tt
  | CMultiReadRequest c r l b e => multi_read_request c r l b e ;;; ret tt
  | CWriteRequest size => write_request size ;;; ret tt
  | CWriteUpdate h rec => write_update h rec
  | CWriteComplete b o => write_complete b o
  | CValidTiles l region b e m => valid_tiles l region b e m ;;; ret tt
  | CNumLevels => num_levels ;;; ret tt
  | CTransactionRequest d o => transaction_request d o ;;; ret tt
  | CTransactionComplete t u => transaction_complete t u
  | CTransactionFailed t => transaction_failed t
  | CTransactionCursor => transaction_cursor ;;; ret tt
  end.

(** The client states observable between public calls: those returned
    by a constructor, and those a public call returns from them. *)
Inductive reachable : RemoteIndex -> Prop :=
| reach_open url s : open_index url = Ok s -> reachable s
| reach_create url hdr s : create_index url hdr = Ok s -> reachable s
| reach_call call s : reachable s -> reachable (snd (run_call call s)).

End Client.

(** Sequence of [write_update] calls, in order. *)
Fixpoint write_updates (service : list Request -> Request -> Reply)
  (us : list (TileHeader * IndexRecord)) : M unit :=
  match us with
  | [] => ret tt
  | (h, rec) :: us' => write_update service h rec ;;; write_updates service us'
  end.

(** The request each call sends itself (after the flush, if any),
    for a client whose platefile id is [pid]. *)
Definition own_request (pid : Z) (call : Call) : option Request :=
  match call with
  | CReadRequest c r l tid e => Some (IndexReadRequest pid c r l tid e)
  | CMultiReadRequest c r l b e => Some (IndexMultiReadRequest pid c r l b e)
  | CWriteRequest size => Some (IndexWriteRequest pid size)
  | CWriteUpdate _ _ => None
  | CWriteComplete b o => Some (IndexWriteComplete pid b o)
  | CValidTiles l region b e m =>
      Some (IndexValidTilesRequest pid l (min_x region) (min_y region)
              (bbox_width region) (bbox_height region) b e m)
  | CNumLevels => Some (IndexNumLevelsRequest pid)
  | CTransactionRequest d o => Some (IndexTransactionRequest pid d o)
  | CTransactionComplete t u => Some (IndexTransactionComplete pid t u)
  | CTransactionFailed t => Some (IndexTransactionFailed pid t)
  | CTransactionCursor => Some (IndexTransactionCursorRequest pid)
  end.

(** Calls that flush the queue before their own request. *)
Definition flushes_first (call : Call) : bool :=
  match call with
  | CReadRequest _ _ _ _ _ | CMultiReadRequest _ _ _ _ _ | CWriteComplete _ _
  | CValidTiles _ _ _ _ _ | CNumLevels | CTransactionComplete _ _
  | CTransactionFailed _ => true
  | CWriteRequest _ | CWriteUpdate _ _ | CTransactionRequest _ _
  | CTransactionCursor => false
  end.

(** The [IndexWriteUpdate] built by [write_update] on a client whose
    platefile id is [pid]. *)
Definition mk_update (pid : Z) (u : TileHeader * IndexRecord) : IndexWriteUpdate :=
  {| wu_platefile_id := pid; header := fst u; record := snd u |}.

(* ------------------------------------------------------------------ *)
(** ** Sequences of calls *)

(** Public calls issued one after the other on the same client. *)
Fixpoint run_calls (service : list Request -> Request -> Reply) (calls : list Call) : M unit :=
  match calls with
  | [] => ret tt
  | call :: calls' => run_call service call ;;; run_calls service calls'
  end.

(** The updates carried by the [MultiWriteUpdate] requests of a log,
    in the order they were sent. *)
Definition batched (l : list Request) : list IndexWriteUpdate :=
  flat_map (fun req => match req with IndexMultiWriteUpdate us => us | _ => [] end) l.

(** The updates a sequence of calls hands to [write_update], in call
    order, as built for a client whose platefile id is [pid]. *)
Definition enqueued (pid : Z) (calls : list Call) : list IndexWriteUpdate :=
  flat_map (fun call => match call with
                        | CWriteUpdate h rec => [mk_update pid (h, rec)]
                        | _ => []
                        end) calls.

(** The requests that establish a session: open and create. *)
Definition is_session_request (req : Request) : bool :=
  match req with
  | IndexOpenRequest _ | IndexCreateRequest _ _ => true
  | _ => false
  end.

(* ------------------------------------------------------------------ *)
(** ** Concrete instances, for examples *)

(** A service answering every request with an empty message. *)
Definition null_service : list Request -> Request -> Reply := fun _ _ => RpcNullMessage.

(** Queue names drawn as the plain prefix. *)
Definition plain_queue_name : string -> string := fun n => n.

Definition example_address : Address :=
  ("localhost"%string, 5672, "myexchange"%string, "foo.plate"%string).

(** A freshly connected client: empty queue, nothing sent. *)
Definition example_client : RemoteIndex :=
  connected plain_queue_name example_address default_header.

Definition example_tile : TileHeader :=
  {| col := 1; row := 2; level := 3; transaction_id := 4; filetype := "png" |}.

Definition example_update : IndexWriteUpdate :=
  mk_update 0 (example_tile, default_record).

(** The same client with one update queued. *)
Definition example_client_one : RemoteIndex :=
  set_write_queue [example_update] example_client.

(** The client returned by the open constructor on
    [pf://myexchange/foo.plate] under [null_service]. *)
Definition example_opened : RemoteIndex :=
  set_from_reply RpcNullMessage (set_sent [IndexOpenRequest "foo.plate"] example_client).

(** Ten updates for the same tile. *)
Definition ten_updates : list (TileHeader * IndexRecord) :=
  repeat (example_tile, default_record) 10.

(** A service that assigns platefile id 7 on open and answers a
    multi-read with two versions. *)
Definition demo_header : IndexHeader :=
  {| platefile_id := 7; tile_size := 256; tile_filetype := "png"; pixel_format := 0;
     channel_type := 0; version := 1 |}.

Definition demo_service (history : list Request) (req : Request) : Reply :=
  match req with
  | IndexOpenRequest _ => IndexOpenReply demo_header "foo" "foo.plate"
  | IndexMultiReadRequest _ _ _ _ _ _ =>
      IndexMultiReadReply [3; 5] [default_record; {| blob_id := 1; blob_offset := 64;
                                                     record_size := 10; status := 0 |}]
  | _ => RpcNullMessage
  end.

(** The client the open constructor returns under [demo_service]. *)
Definition demo_opened : RemoteIndex :=
  match open_index demo_service plain_queue_name "pf://myexchange/foo.plate" with
  | Ok s => s
  | Err _ => example_client
  end.

(** [demo_opened] after two [write_update] calls, then after a
    [num_levels] and a [transaction_request]. *)
Definition demo_two_queued : RemoteIndex :=
  snd (run_call demo_service (CWriteUpdate example_tile default_record)
        (snd (run_call demo_service (CWriteUpdate example_tile default_record) demo_opened))).

Definition demo_after_calls : RemoteIndex :=
  snd (run_call demo_service (CTransactionRequest "mosaic" (-1))
        (snd (run_call demo_service CNumLevels demo_two_queued))).

(** The service's reply to a multi-read issued on [s], which it receives
    right after the flush of the queue of [s]. *)
Definition multi_read_reply (service : list Request -> Request -> Reply)
  (c r l b e : Z) (s : RemoteIndex) : Reply :=
  service (sent s ++ [IndexMultiWriteUpdate (m_write_queue s)])
          (IndexMultiReadRequest (m_platefile_id s) c r l b e).

(* ================================================================== *)
(** * Lemmas *)

(** ** Strings *)

Lemma split_nonempty c s : exists tok toks, Str.split c s = tok :: toks.
Proof.
  induction s as [|a s IH]; simpl.
  - eauto.
  - destruct (Ascii.eqb a c); [eauto|].
    destruct IH as (tok & toks & ->); eauto.
Qed.

Lemma split_app_sep c a b :
  Str.split c (a ++ String c b) = Str.split c a ++ Str.split c b.
Proof.
  induction a as [|x a IH]; simpl.
  - rewrite Ascii.eqb_refl. reflexivity.
  - rewrite IH. destruct (Ascii.eqb x c); [reflexivity|].
    destruct (split_nonempty c a) as (tok & toks & ->). reflexivity.
Qed.

Lemma split_no_sep c s : Str.count c s = 0%nat -> Str.split c s = [s].
Proof.
  induction s as [|a s IH]; simpl; [reflexivity|].
  destruct (Ascii.eqb a c); simpl; [discriminate|].
  intros H. rewrite (IH H). reflexivity.
Qed.

Lemma split_length c s : length (Str.split c s) = S (Str.count c s).
Proof.
  induction s as [|a s IH]; simpl; [reflexivity|].
  destruct (Ascii.eqb a c); simpl; [now rewrite IH|].
  destruct (split_nonempty c s) as (tok & toks & E).
  rewrite E in *. simpl in *. exact IH.
Qed.

Lemma substring_0_length s : substring 0 (String.length s) s = s.
Proof. induction s as [|a s IH]; simpl; [reflexivity|now rewrite IH]. Qed.

Lemma substr_from_scheme x : Str.substr_from 5 ("pf://" ++ x) = x.
Proof.
  unfold Str.substr_from. simpl. rewrite Nat.sub_0_r.
  apply substring_0_length.
Qed.

Lemma find_scheme x : Str.find "pf://" ("pf://" ++ x) = Some 0%nat.
Proof.
  assert (H : prefix "pf://" ("pf://" ++ x) = true)
    by (apply prefix_correct; destruct x; reflexivity).
  unfold Str.find. revert H. generalize ("pf://" ++ x)%string.
  intros s H. destruct s as [|b s]; [discriminate|].
  cbn [index]. rewrite H. reflexivity.
Qed.

Lemma find_zero_prefix pat s :
  Str.find pat s = Some 0%nat -> prefix pat s = true.
Proof.
  unfold Str.find. destruct s as [|b s]; cbn [index].
  - destruct pat; [reflexivity|discriminate].
  - destruct (prefix pat (String b s)); [reflexivity|].
    destruct (index 0 pat s); discriminate.
Qed.

(** [parse_url] on a URL that carries the scheme. *)
Lemma parse_url_scheme path :
  parse_url ("pf://" ++ path) =
  match Str.split "/"%char path with
  | [routing_key; platefile_name] =>
      Ok ("localhost"%string, 5672, routing_key, platefile_name)
  | [host_port; exchange; platefile_name] =>
      match Str.split ":"%char host_port with
      | [hostname] => Ok (hostname, 5672, exchange, platefile_name)
      | [hostname; port_str] =>
          match Str.lexical_cast_int port_str with
          | Some port => Ok (hostname, port, exchange, platefile_name)
          | None => Err BadLexicalCast
          end
      | _ => Err (ArgumentErr ("RemoteIndex::parse_url() -- could not parse hostname and port from URL string: " ++ ("pf://" ++ path)))
      end
  | _ => Err (ArgumentErr ("RemoteIndex::parse_url() -- could not parse URL string: " ++ ("pf://" ++ path)))
  end.
Proof.
  unfold parse_url. rewrite find_scheme, substr_from_scheme. reflexivity.
Qed.

Lemma split_two c a b :
  Str.count c a = 0%nat -> Str.count c b = 0%nat ->
  Str.split c (a ++ String c b) = [a; b].
Proof.
  intros Ha Hb. rewrite split_app_sep, (split_no_sep c a Ha), (split_no_sep c b Hb).
  reflexivity.
Qed.

Lemma split_three c a b d :
  Str.count c a = 0%nat -> Str.count c b = 0%nat -> Str.count c d = 0%nat ->
  Str.split c (a ++ String c (b ++ String c d)) = [a; b; d].
Proof.
  intros Ha Hb Hd. rewrite split_app_sep, (split_no_sep c a Ha), (split_two c b d Hb Hd).
  reflexivity.
Qed.

(** ** More on strings *)

Lemma string_app_assoc (a b c : string) : ((a ++ b) ++ c = a ++ (b ++ c))%string.
Proof. induction a as [|x a IH]; simpl; [reflexivity|now rewrite IH]. Qed.

Lemma count_app c a b : Str.count c (a ++ b) = (Str.count c a + Str.count c b)%nat.
Proof. induction a as [|x a IH]; simpl; [reflexivity|rewrite IH; lia]. Qed.

Lemma digits_acc_no_char c acc s z :
  Str.digit_val c = None -> Str.digits_acc acc s = Some z -> Str.count c s = 0%nat.
Proof.
  intros Hc. revert acc; induction s as [|a s IH]; intros acc H; simpl in *; [reflexivity|].
  destruct (Str.digit_val a) as [d|] eqn:Ha; [|discriminate].
  destruct (Ascii.eqb_spec a c) as [->|_]; [congruence|].
  simpl. eapply IH; eassumption.
Qed.

Lemma digits_no_char c s z :
  Str.digit_val c = None -> Str.digits s = Some z -> Str.count c s = 0%nat.
Proof.
  unfold Str.digits. destruct s; [discriminate|]. apply digits_acc_no_char.
Qed.

(** A port accepted by [lexical_cast<int>] contains no [':'] and no ['/']. *)
Lemma lexical_cast_no_char c p port :
  Str.digit_val c = None -> c <> "-"%char -> c <> "+"%char ->
  Str.lexical_cast_int p = Some port -> Str.count c p = 0%nat.
Proof.
  intros Hc Hm Hp. unfold Str.lexical_cast_int.
  assert (Hv : forall v, Str.digits p = Some v -> Str.count c p = 0%nat)
    by (intros v; apply digits_no_char; exact Hc).
  destruct p as [|a r]; [discriminate|].
  match goal with |- context [match ?v with Some z => _ | None => None end] =>
    destruct v as [z|] eqn:E end; [|discriminate]; intros _.
  destruct (Ascii.eqb_spec a "-"%char) as [->|Ham];
  [|destruct (Ascii.eqb_spec a "+"%char) as [->|Hap]].
  - change (Str.count c (String "-"%char r))
      with ((if Ascii.eqb "-"%char c then 1 else 0) + Str.count c r)%nat.
    destruct (Ascii.eqb_spec "-"%char c); [congruence|].
    destruct (Str.digits r) eqn:Er; [|discriminate].
    eapply digits_no_char; eassumption.
  - change (Str.count c (String "+"%char r))
      with ((if Ascii.eqb "+"%char c then 1 else 0) + Str.count c r)%nat.
    destruct (Ascii.eqb_spec "+"%char c); [congruence|].
    eapply digits_no_char; eassumption.
  - apply (Hv z). rewrite <- E.
    destruct a as [[] [] [] [] [] [] [] []]; try reflexivity; congruence.
Qed.

(** ** The write queue *)

Lemma drain_spec acc q : drain acc q = (acc ++ q, []).
Proof.
  revert acc; induction q as [|x q IH]; intros acc; simpl.
  - now rewrite app_nil_r.
  - rewrite IH, <- app_assoc. reflexivity.
Qed.

(** One flush: a single [MultiWriteUpdate] carrying the whole queue,
    front first, and an empty queue afterwards. *)
Lemma flush_spec service s :
  flush_write_queue service s =
  (tt, set_sent (sent s ++ [IndexMultiWriteUpdate (m_write_queue s)])
                (set_write_queue [] s)).
Proof.
  unfold flush_write_queue, bind, get, put, ret, rpc. simpl.
  rewrite drain_spec. reflexivity.
Qed.

Lemma set_write_queue_same s : set_write_queue (m_write_queue s) s = s.
Proof. destruct s; reflexivity. Qed.

Lemma set_sent_same s : set_sent (sent s) s = s.
Proof. destruct s; reflexivity. Qed.

(** Every call but [write_update]: the RPCs it issues and the queue it
    leaves. *)
Lemma run_call_spec service call s req :
  own_request (m_platefile_id s) call = Some req ->
  sent (snd (run_call service call s)) =
    sent s ++ (if flushes_first call then [IndexMultiWriteUpdate (m_write_queue s)] else [])
           ++ [req] /\
  m_write_queue (snd (run_call service call s)) =
    (if flushes_first call then [] else m_write_queue s).
Proof.
  intros Hreq.
  destruct call; simpl in Hreq; inversion Hreq; subst; clear Hreq;
    cbn [run_call flushes_first];
    unfold read_request, multi_read_request, write_request, write_complete,
      valid_tiles, num_levels, transaction_request, transaction_complete,
      transaction_failed, transaction_cursor, bind, get, ret, rpc;
    try rewrite flush_spec; simpl; rewrite <- ?app_assoc; split; reflexivity.
Qed.

Lemma write_update_spec service h rec s :
  write_update service h rec s =
  let q := m_write_queue s ++ [mk_update (m_platefile_id s) (h, rec)] in
  if (10 <=? length q)%nat
  then (tt, set_sent (sent s ++ [IndexMultiWriteUpdate q]) (set_write_queue [] s))
  else (tt, set_write_queue q s).
Proof.
  unfold write_update, bind, get, put, ret, mk_update; cbv zeta beta; cbn [fst snd].
  set (q := m_write_queue s ++ _).
  change (m_write_queue (set_write_queue q s)) with q.
  unfold max_pending_write_updates.
  destruct (10 <=? length q)%nat; [rewrite flush_spec|]; reflexivity.
Qed.

Lemma write_updates_below service us s :
  (length (m_write_queue s) + length us < 10)%nat ->
  write_updates service us s =
  (tt, set_write_queue (m_write_queue s ++ map (mk_update (m_platefile_id s)) us) s).
Proof.
  revert s; induction us as [|[h rec] us IH]; intros s Hlen; simpl.
  - rewrite app_nil_r, set_write_queue_same. reflexivity.
  - unfold bind at 1. rewrite write_update_spec. cbv zeta.
    rewrite length_app. cbn [length]. simpl in Hlen.
    replace (10 <=? length (m_write_queue s) + 1)%nat with false
      by (symmetry; apply Nat.leb_gt; lia).
    rewrite IH by (cbn [m_write_queue set_write_queue]; rewrite length_app; cbn [length]; lia).
    cbn [m_write_queue set_write_queue m_platefile_id].
    rewrite <- app_assoc. destruct s; reflexivity.
Qed.


Lemma write_updates_app service a b s :
  write_updates service (a ++ b) s = write_updates service b (snd (write_updates service a s)).
Proof.
  revert s; induction a as [|[h rec] a IH]; intros s; simpl.
  - reflexivity.
  - unfold bind. destruct (write_update service h rec s) as [[] s']. apply IH.
Qed.

(* ================================================================== *)
(** * Examples *)

Example parse_url_ex1 :
  parse_url "pf://myexchange/foo.plate" = Ok ("localhost"%string, 5672, "myexchange"%string, "foo.plate"%string).
Proof. reflexivity. Qed.

Example parse_url_ex2 :
  parse_url "pf://1.2.3.4:9999/myexchange/foo.plate" = Ok ("1.2.3.4"%string, 9999, "myexchange"%string, "foo.plate"%string).
Proof. reflexivity. Qed.

Example parse_url_ex3 :
  parse_url "pf://a/b/c/d" = Err (ArgumentErr "RemoteIndex::parse_url() -- could not parse URL string: pf://a/b/c/d").
Proof. reflexivity. Qed.

(* ================================================================== *)
(** * Claims *)

(** ** The write batching queue *)

(** C1 (counterexample): on a freshly connected client, whose queue is
    empty, [flush_write_queue] still issues an RPC. *)
Lemma C1_flush_empty_queue_sends_rpc :
  m_write_queue example_client = [] /\
  sent (snd (flush_write_queue null_service example_client)) <> sent example_client /\
  sent (snd (flush_write_queue null_service example_client)) = [IndexMultiWriteUpdate []].
Proof. vm_compute. split; [reflexivity|split; [discriminate|reflexivity]]. Qed.

(** C1 (amended): every flush issues exactly one [MultiWriteUpdate] RPC
    carrying the whole queue, front first, and leaves the queue empty;
    on an empty queue that RPC is still issued, with an empty batch. *)
Theorem C1_flush_always_one_batch service s :
  sent (snd (flush_write_queue service s)) =
    sent s ++ [IndexMultiWriteUpdate (m_write_queue s)] /\
  m_write_queue (snd (flush_write_queue service s)) = [].
Proof. rewrite flush_spec. split; reflexivity. Qed.

(** C2 (counterexample): [transaction_request] issued with one queued
    update sends only its own request; no flush precedes it and the
    update stays queued. *)
Lemma C2_transaction_request_no_flush :
  m_write_queue example_client_one = [example_update] /\
  sent (snd (run_call null_service (CTransactionRequest "mosaic" (-1)) example_client_one)) =
    [IndexTransactionRequest 0 "mosaic" (-1)] /\
  m_write_queue (snd (run_call null_service (CTransactionRequest "mosaic" (-1)) example_client_one)) =
    [example_update].
Proof. vm_compute. repeat split. Qed.

(** C2 (amended): [read_request], [multi_read_request], [valid_tiles],
    [num_levels], [write_complete], [transaction_complete] and
    [transaction_failed] first issue one [MultiWriteUpdate] carrying the
    whole queue, then their own request, and leave the queue empty;
    [transaction_request], [write_request] and [transaction_cursor] issue
    only their own request and leave the queue as it was. *)
Theorem C2_flush_before_own_request service call s req :
  own_request (m_platefile_id s) call = Some req ->
  sent (snd (run_call service call s)) =
    sent s ++ (if flushes_first call then [IndexMultiWriteUpdate (m_write_queue s)] else [])
           ++ [req] /\
  m_write_queue (snd (run_call service call s)) =
    (if flushes_first call then [] else m_write_queue s).
Proof. apply run_call_spec. Qed.

Lemma C2_flush_before_own_request_witness :
  own_request 0 (CReadRequest 1 2 3 4 true) = Some (IndexReadRequest 0 1 2 3 4 true) /\
  sent (snd (run_call null_service (CReadRequest 1 2 3 4 true) example_client_one)) =
    [IndexMultiWriteUpdate [example_update]; IndexReadRequest 0 1 2 3 4 true] /\
  m_write_queue (snd (run_call null_service (CReadRequest 1 2 3 4 true) example_client_one)) = [].
Proof.
  split; [reflexivity|].
  apply (C2_flush_before_own_request null_service (CReadRequest 1 2 3 4 true)
           example_client_one (IndexReadRequest 0 1 2 3 4 true)).
  reflexivity.
Defined.

(** C7: [write_request] issues only its own [WriteRequest], leaves the
    queue unchanged and returns the [blob_id] of the reply. *)
Theorem C7_write_request_no_flush service size s :
  write_request service size s =
    (reply_blob_id (service (sent s) (IndexWriteRequest (m_platefile_id s) size)),
     set_sent (sent s ++ [IndexWriteRequest (m_platefile_id s) size]) s) /\
  m_write_queue (snd (write_request service size s)) = m_write_queue s.
Proof. split; reflexivity. Qed.

(** C8: the destructor issues a final [MultiWriteUpdate] carrying every
    queued update, front first, and nothing is left in the queue. *)
Theorem C8_destructor_flushes service s :
  sent (snd (destroy service s)) = sent s ++ [IndexMultiWriteUpdate (m_write_queue s)] /\
  m_write_queue (snd (destroy service s)) = [].
Proof. unfold destroy. rewrite flush_spec. split; reflexivity. Qed.

(** C9: whenever the URL parses, the create constructor succeeds and its
    only request is an [IndexCreateRequest] whose header is the caller's
    with [platefile_id] set to 0, whatever the caller's id was. *)
Theorem C9_create_zeroes_platefile_id service UniqueQueueName url hdr :
  match parse_url url with
  | Ok addr =>
      exists s, create_index service UniqueQueueName url hdr = Ok s /\
        sent s = [IndexCreateRequest (addr_platefile_name addr) (set_platefile_id 0 hdr)] /\
        platefile_id (set_platefile_id 0 hdr) = 0
  | Err e => create_index service UniqueQueueName url hdr = Err e
  end.
Proof.
  unfold create_index. destruct (parse_url url) as [addr|e]; [|reflexivity].
  destruct addr as [[[hostname port] routing_key] platefile_name].
  eexists; split; [reflexivity|]. split; reflexivity.
Qed.

(** C4: starting from an empty queue, fewer than 10 [write_update] calls
    issue no RPC and leave their updates queued in call order; exactly 10
    calls issue exactly one [MultiWriteUpdate] carrying the 10 updates in
    call order (on the 10th call) and leave the queue empty. *)
Theorem C4_write_update_threshold service us s :
  m_write_queue s = [] ->
  ((length us < 10)%nat ->
     write_updates service us s =
       (tt, set_write_queue (map (mk_update (m_platefile_id s)) us) s)) /\
  (length us = 10%nat ->
     write_updates service us s =
       (tt, set_sent (sent s ++ [IndexMultiWriteUpdate (map (mk_update (m_platefile_id s)) us)]) s)).
Proof.
  intros Hq. split.
  - intros Hlen. rewrite write_updates_below by (rewrite Hq; simpl; lia).
    rewrite Hq. reflexivity.
  - intros Hlen.
    destruct (exists_last (l := us)) as (l & [h rec] & ->);
      [intros ->; discriminate|].
    rewrite length_app in Hlen. simpl in Hlen.
    rewrite write_updates_app.
    rewrite (write_updates_below service l s) by (rewrite Hq; simpl; lia).
    rewrite Hq. simpl. unfold bind. rewrite write_update_spec. cbv zeta.
    cbn [m_write_queue set_write_queue m_platefile_id sent set_sent].
    rewrite length_app, length_map. cbn [length].
    replace (10 <=? length l + 1)%nat with true by (symmetry; apply Nat.leb_le; lia).
    unfold ret. rewrite map_app. destruct s; simpl in Hq |- *; subst; reflexivity.
Qed.

Lemma C4_write_update_threshold_witness :
  m_write_queue example_client = [] /\
  ((length ten_updates < 10)%nat ->
     write_updates null_service ten_updates example_client =
       (tt, set_write_queue (map (mk_update (m_platefile_id example_client)) ten_updates)
              example_client)) /\
  (length ten_updates = 10%nat ->
     write_updates null_service ten_updates example_client =
       (tt, set_sent (sent example_client ++
                      [IndexMultiWriteUpdate (map (mk_update (m_platefile_id example_client)) ten_updates)])
              example_client)).
Proof.
  split; [reflexivity|].
  apply (C4_write_update_threshold null_service ten_updates example_client).
  reflexivity.
Defined.

(** C10: in every client state a public call can observe, the queue
    holds at most 9 updates. *)
Theorem C10_queue_below_threshold service UniqueQueueName s :
  reachable service UniqueQueueName s -> (length (m_write_queue s) <= 9)%nat.
Proof.
  induction 1 as [url s Hopen|url hdr s Hcreate|call s _ IH].
  - unfold open_index in Hopen. destruct (parse_url url) as [addr|]; [|discriminate].
    destruct addr as [[[hostname port] routing_key] platefile_name].
    injection Hopen as <-. simpl. lia.
  - unfold create_index in Hcreate. destruct (parse_url url) as [addr|]; [|discriminate].
    destruct addr as [[[hostname port] routing_key] platefile_name].
    injection Hcreate as <-. simpl. lia.
  - destruct (own_request (m_platefile_id s) call) as [req|] eqn:E.
    + destruct (run_call_spec service call s req E) as [_ ->].
      destruct (flushes_first call); simpl; lia.
    + destruct call; try discriminate. cbn [run_call].
      rewrite write_update_spec. cbv zeta.
      destruct (10 <=? length (m_write_queue s ++ [mk_update (m_platefile_id s) (h, rec)]))%nat
        eqn:L; simpl; [lia|].
      apply Nat.leb_gt in L. rewrite length_app in L |- *. simpl in *. lia.
Qed.

Lemma C10_queue_below_threshold_witness :
  reachable null_service plain_queue_name
    (snd (run_call null_service (CWriteUpdate example_tile default_record) example_opened)) /\
  (length (m_write_queue
     (snd (run_call null_service (CWriteUpdate example_tile default_record) example_opened))) <= 9)%nat.
Proof.
  assert (H : reachable null_service plain_queue_name
    (snd (run_call null_service (CWriteUpdate example_tile default_record) example_opened))).
  { apply reach_call. apply (reach_open null_service plain_queue_name "pf://myexchange/foo.plate").
    vm_compute. reflexivity. }
  split; [exact H|].
  apply (C10_queue_below_threshold null_service plain_queue_name _ H).
Defined.

(** ** The URL parser *)

(** C3: on a 3-segment URL whose port is not an integer, parsing does
    fail, but [lexical_cast<int>] throws [bad_lexical_cast], which escapes
    untranslated; no [ArgumentErr] is raised, unlike every other failure
    path of [parse_url]. *)
Lemma C3_non_numeric_port_not_argument_error :
  parse_url "pf://myhost:abc/myexchange/foo.plate" = Err BadLexicalCast /\
  ~ (exists msg, parse_url "pf://myhost:abc/myexchange/foo.plate" = Err (ArgumentErr msg)).
Proof.
  split; [reflexivity|]. intros [msg H]. vm_compute in H. discriminate.
Qed.

(** C5: [pf://key/name] gives host [localhost], port 5672 and the two
    segments; [pf://host:port/key/name] with a port accepted by
    [lexical_cast<int>] gives that host and port and the last two
    segments; [pf://host/key/name] gives that host and port 5672. *)
Theorem C5_parse_url_fields :
  (forall routing_key platefile_name,
     Str.count "/" routing_key = 0%nat -> Str.count "/" platefile_name = 0%nat ->
     parse_url ("pf://" ++ routing_key ++ "/" ++ platefile_name)
       = Ok ("localhost"%string, 5672, routing_key, platefile_name)) /\
  (forall host port_str port routing_key platefile_name,
     Str.count "/" host = 0%nat -> Str.count ":" host = 0%nat ->
     Str.count "/" routing_key = 0%nat -> Str.count "/" platefile_name = 0%nat ->
     Str.lexical_cast_int port_str = Some port ->
     parse_url ("pf://" ++ host ++ ":" ++ port_str ++ "/" ++ routing_key ++ "/" ++ platefile_name)
       = Ok (host, port, routing_key, platefile_name)) /\
  (forall host routing_key platefile_name,
     Str.count "/" host = 0%nat -> Str.count ":" host = 0%nat ->
     Str.count "/" routing_key = 0%nat -> Str.count "/" platefile_name = 0%nat ->
     parse_url ("pf://" ++ host ++ "/" ++ routing_key ++ "/" ++ platefile_name)
       = Ok (host, 5672, routing_key, platefile_name)).
Proof.
  split; [|split].
  - intros rk pn Hr Hn.
    change ("/" ++ pn)%string with (String "/" pn).
    rewrite parse_url_scheme, split_two by assumption. reflexivity.
  - intros host port_str port rk pn Hh1 Hh2 Hr Hn Hcast.
    assert (Hp1 : Str.count "/" port_str = 0%nat)
      by (apply (lexical_cast_no_char _ _ port); [reflexivity|discriminate|discriminate|exact Hcast]).
    assert (Hp2 : Str.count ":" port_str = 0%nat)
      by (apply (lexical_cast_no_char _ _ port); [reflexivity|discriminate|discriminate|exact Hcast]).
    replace (host ++ ":" ++ port_str ++ "/" ++ rk ++ "/" ++ pn)%string
      with ((host ++ String ":" port_str) ++ String "/" (rk ++ String "/" pn))%string
      by (rewrite string_app_assoc; reflexivity).
    rewrite parse_url_scheme, split_three; [| |assumption|assumption].
    + rewrite split_two by assumption. rewrite Hcast. reflexivity.
    + rewrite count_app. simpl. rewrite Hh1, Hp1. reflexivity.
  - intros host rk pn Hh1 Hh2 Hr Hn.
    change ("/" ++ rk ++ "/" ++ pn)%string with (String "/" (rk ++ String "/" pn)).
    rewrite parse_url_scheme, split_three by assumption.
    rewrite (split_no_sep _ _ Hh2). reflexivity.
Qed.

Lemma C5_parse_url_fields_witness :
  (Str.count "/" "myexchange" = 0%nat /\ Str.count "/" "foo.plate" = 0%nat /\
   parse_url ("pf://" ++ "myexchange" ++ "/" ++ "foo.plate")
     = Ok ("localhost"%string, 5672, "myexchange"%string, "foo.plate"%string)) /\
  (Str.count "/" "1.2.3.4" = 0%nat /\ Str.count ":" "1.2.3.4" = 0%nat /\
   Str.count "/" "myexchange" = 0%nat /\ Str.count "/" "foo.plate" = 0%nat /\
   Str.lexical_cast_int "9999" = Some 9999 /\
   parse_url ("pf://" ++ "1.2.3.4" ++ ":" ++ "9999" ++ "/" ++ "myexchange" ++ "/" ++ "foo.plate")
     = Ok ("1.2.3.4"%string, 9999, "myexchange"%string, "foo.plate"%string)) /\
  (Str.count "/" "1.2.3.4" = 0%nat /\ Str.count ":" "1.2.3.4" = 0%nat /\
   Str.count "/" "myexchange" = 0%nat /\ Str.count "/" "foo.plate" = 0%nat /\
   parse_url ("pf://" ++ "1.2.3.4" ++ "/" ++ "myexchange" ++ "/" ++ "foo.plate")
     = Ok ("1.2.3.4"%string, 5672, "myexchange"%string, "foo.plate"%string)).
Proof.
  destruct C5_parse_url_fields as [A [B C]].
  split; [|split].
  - do 2 (split; [reflexivity|]). apply A; reflexivity.
  - do 5 (split; [reflexivity|]). apply B; reflexivity.
  - do 4 (split; [reflexivity|]). apply C; reflexivity.
Defined.

(** C6: a URL that does not start with [pf://], or whose path after it
    has a number of ['/']-separated segments other than 2 and 3, fails
    with [ArgumentErr]. *)
Theorem C6_malformed_url_fails :
  (forall url, prefix "pf://" url = false ->
     exists msg, parse_url url = Err (ArgumentErr msg)) /\
  (forall path,
     length (Str.split "/"%char path) <> 2%nat ->
     length (Str.split "/"%char path) <> 3%nat ->
     exists msg, parse_url ("pf://" ++ path) = Err (ArgumentErr msg)).
Proof.
  split.
  - intros url Hpre. unfold parse_url.
    destruct (Str.find "pf://" url) as [[|k]|] eqn:E; [|eexists; reflexivity..].
    apply find_zero_prefix in E. congruence.
  - intros path H2 H3. rewrite parse_url_scheme.
    destruct (Str.split "/"%char path) as [|a [|b [|c [|d l]]]]; simpl in H2, H3;
      try congruence; eexists; reflexivity.
Qed.

Lemma C6_malformed_url_fails_witness :
  (prefix "pf://" "http://myexchange/foo.plate" = false /\
   exists msg, parse_url "http://myexchange/foo.plate" = Err (ArgumentErr msg)) /\
  (length (Str.split "/"%char "a/b/c/d") <> 2%nat /\
   length (Str.split "/"%char "a/b/c/d") <> 3%nat /\
   exists msg, parse_url ("pf://" ++ "a/b/c/d") = Err (ArgumentErr msg)).
Proof.
  destruct C6_malformed_url_fails as [A B].
  split.
  - split; [vm_compute; reflexivity|]. apply A. vm_compute. reflexivity.
  - split; [vm_compute; discriminate|]. split; [vm_compute; discriminate|].
    apply B; vm_compute; discriminate.
Defined.

(* ================================================================== *)
(** * Further properties of the client *)

(** ** Helpers *)

Lemma run_call_frame_aux service call s :
  exists q l, snd (run_call service call s) = set_sent l (set_write_queue q s).
Proof.
  exists (m_write_queue (snd (run_call service call s))), (sent (snd (run_call service call s))).
  destruct call; cbn [run_call].
  4: { rewrite write_update_spec. cbv zeta.
       destruct (10 <=? _)%nat; destruct s; reflexivity. }
  all: unfold read_request, multi_read_request, write_request, write_complete,
      valid_tiles, num_levels, transaction_request, transaction_complete,
      transaction_failed, transaction_cursor, bind, get, ret, rpc;
    try rewrite flush_spec; destruct s; reflexivity.
Qed.

Lemma batched_app l1 l2 : batched (l1 ++ l2) = batched l1 ++ batched l2.
Proof. unfold batched. apply flat_map_app. Qed.

(** One call: what reaches the service in batches, followed by what is
    still queued, grows by exactly the update the call enqueues. *)
Lemma run_call_conserves service call s :
  batched (sent (snd (run_call service call s))) ++ m_write_queue (snd (run_call service call s)) =
  batched (sent s) ++ m_write_queue s ++ enqueued (m_platefile_id s) [call].
Proof.
  destruct (own_request (m_platefile_id s) call) as [req|] eqn:E.
  - destruct (run_call_spec service call s req E) as [-> ->].
    assert (Hb : batched [req] = []) by (destruct call; inversion E; reflexivity).
    assert (He : enqueued (m_platefile_id s) [call] = []) by (destruct call; inversion E; reflexivity).
    rewrite He, !batched_app, Hb.
    destruct (flushes_first call); simpl; rewrite ?app_nil_r; unfold batched; simpl;
      rewrite ?app_nil_r; reflexivity.
  - destruct call; try discriminate. cbn [run_call]. rewrite write_update_spec. cbv zeta.
    destruct (10 <=? _)%nat; simpl; unfold batched; rewrite ?flat_map_app; simpl;
      rewrite ?app_nil_r, ?app_assoc; reflexivity.
Qed.

Lemma run_call_platefile_id service call s :
  m_platefile_id (snd (run_call service call s)) = m_platefile_id s.
Proof.
  destruct (run_call_frame_aux service call s) as (q & l & ->). reflexivity.
Qed.

Lemma run_calls_conserves service calls s :
  batched (sent (snd (run_calls service calls s))) ++ m_write_queue (snd (run_calls service calls s)) =
  batched (sent s) ++ m_write_queue s ++ enqueued (m_platefile_id s) calls /\
  m_platefile_id (snd (run_calls service calls s)) = m_platefile_id s.
Proof.
  revert s; induction calls as [|call calls IH]; intros s; simpl.
  - rewrite app_nil_r. split; reflexivity.
  - unfold bind. destruct (run_call service call s) as [[] s1] eqn:E.
    destruct (IH s1) as [H1 H2].
    pose proof (run_call_conserves service call s) as C.
    pose proof (run_call_platefile_id service call s) as P.
    rewrite E in C, P. simpl in C, P.
    rewrite H1, H2, P, app_assoc, C. unfold enqueued at 1. simpl.
    rewrite app_nil_r, <- !app_assoc. split; reflexivity.
Qed.

(** The requests a call sends, after those already sent. *)
Lemma run_call_sent_suffix service call s :
  exists extra, sent (snd (run_call service call s)) = sent s ++ extra /\
                Forall (fun req => is_session_request req = false) extra.
Proof.
  destruct (own_request (m_platefile_id s) call) as [req|] eqn:E.
  - destruct (run_call_spec service call s req E) as [-> _].
    eexists; split; [reflexivity|].
    destruct (flushes_first call); simpl; repeat constructor;
      destruct call; inversion E; reflexivity.
  - destruct call; try discriminate. cbn [run_call]. rewrite write_update_spec. cbv zeta.
    destruct (10 <=? _)%nat; simpl.
    + eexists; split; [reflexivity|]. repeat constructor.
    + exists []. rewrite app_nil_r. split; [reflexivity|constructor].
Qed.

Lemma split_tokens c s t :
  In t (Str.split c s) -> Str.count c t = 0%nat /\ forall c', (Str.count c' t <= Str.count c' s)%nat.
Proof.
  revert t; induction s as [|a s IH]; intros t Hin; simpl in Hin.
  - destruct Hin as [<-|[]]. split; [reflexivity|intros; simpl; lia].
  - destruct (Ascii.eqb_spec a c) as [->|Hac].
    + destruct Hin as [<-|Hin]; [split; [reflexivity|intros; simpl; lia]|].
      destruct (IH t Hin) as [H1 H2]. split; [exact H1|]. intros c'. specialize (H2 c'). simpl. lia.
    + destruct (split_nonempty c s) as (tok & toks & E). rewrite E in Hin.
      destruct Hin as [<-|Hin].
      * assert (Ht : In tok (Str.split c s)) by (rewrite E; left; reflexivity).
        destruct (IH tok Ht) as [H1 H2]. simpl. split.
        -- destruct (Ascii.eqb_spec a c); [congruence|exact H1].
        -- intros c'. specialize (H2 c'). lia.
      * assert (Ht : In t (Str.split c s)) by (rewrite E; right; exact Hin).
        destruct (IH t Ht) as [H1 H2]. split; [exact H1|]. intros c'. specialize (H2 c'). simpl. lia.
Qed.

Lemma lexical_cast_int_range p z :
  Str.lexical_cast_int p = Some z -> Str.int_min <= z <= Str.int_max.
Proof.
  unfold Str.lexical_cast_int. intros H.
  match type of H with (match ?v with Some _ => _ | None => _ end = _) => destruct v end;
    [|discriminate].
  destruct (Str.int_min <=? z0) eqn:E1; destruct (z0 <=? Str.int_max) eqn:E2; simpl in H;
    try discriminate.
  injection H as <-. apply Z.leb_le in E1, E2. lia.
Qed.

Lemma map_nth_seq {A} (d : A) recs n :
  (n <= length recs)%nat -> map (fun i => nth i recs d) (seq 0 n) = firstn n recs.
Proof.
  revert n; induction recs as [|x recs IH]; intros n Hn; simpl in Hn.
  - assert (n = 0%nat) as -> by lia. reflexivity.
  - destruct n as [|n]; [reflexivity|]. simpl. f_equal.
    rewrite <- seq_shift, map_map. apply IH. lia.
Qed.

Lemma multi_read_pairs (recs : list IndexRecord) (tids : list Z) (k : nat) :
  map fst (map (fun '(i, t) => (t, nth i recs default_record)) (combine (seq k (length tids)) tids))
    = tids /\
  map snd (map (fun '(i, t) => (t, nth i recs default_record)) (combine (seq k (length tids)) tids))
    = map (fun i => nth i recs default_record) (seq k (length tids)).
Proof.
  revert k; induction tids as [|t tids IH]; intros k; simpl; [split; reflexivity|].
  destruct (IH (S k)) as [H1 H2]. rewrite H1, H2. split; reflexivity.
Qed.

(** Ten updates on an empty queue: one batch of ten, empty queue. *)
Lemma write_updates_ten service us s :
  m_write_queue s = [] -> length us = 10%nat ->
  write_updates service us s =
    (tt, set_sent (sent s ++ [IndexMultiWriteUpdate (map (mk_update (m_platefile_id s)) us)]) s).
Proof.
  intros Hq Hlen.
  destruct (exists_last (l := us)) as (l & [h rec] & ->); [intros ->; discriminate|].
  rewrite length_app in Hlen. simpl in Hlen.
  rewrite write_updates_app, (write_updates_below service l s) by (rewrite Hq; simpl; lia).
  rewrite Hq. simpl. unfold bind. rewrite write_update_spec. cbv zeta.
  cbn [m_write_queue set_write_queue m_platefile_id sent set_sent].
  rewrite length_app, length_map. cbn [length].
  replace (10 <=? length l + 1)%nat with true by (symmetry; apply Nat.leb_le; lia).
  unfold ret. rewrite map_app. destruct s; simpl in Hq |- *; subst; reflexivity.
Qed.

(** ** Constructors *)

(** X1: when the URL parses, the open constructor sends exactly one
    [IndexOpenRequest] carrying the platefile name, starts with an empty
    queue, and caches the header of the reply, whose [platefile_id]
    becomes the client's; when the URL does not parse, it fails with the
    parser's error. *)
Theorem X1_open_index_spec service UniqueQueueName url :
  match parse_url url with
  | Ok addr =>
      exists s, open_index service UniqueQueueName url = Ok s /\
        sent s = [IndexOpenRequest (addr_platefile_name addr)] /\
        m_write_queue s = [] /\
        m_index_header s = reply_index_header (service [] (IndexOpenRequest (addr_platefile_name addr))) /\
        m_platefile_id s = platefile_id (m_index_header s)
  | Err e => open_index service UniqueQueueName url = Err e
  end.
Proof.
  unfold open_index. destruct (parse_url url) as [addr|e]; [|reflexivity].
  destruct addr as [[[hostname port] routing_key] platefile_name].
  eexists; split; [reflexivity|]. repeat split.
Qed.

(** X2: the create constructor does not keep the caller's header: once
    the reply arrives, the cached header, platefile id and file names are
    those of the service's reply to the create request, and the queue is
    empty. *)
Theorem X2_create_index_caches_reply service UniqueQueueName url hdr :
  match parse_url url with
  | Ok addr =>
      let resp := service [] (IndexCreateRequest (addr_platefile_name addr) (set_platefile_id 0 hdr)) in
      exists s, create_index service UniqueQueueName url hdr = Ok s /\
        m_index_header s = reply_index_header resp /\
        m_platefile_id s = platefile_id (reply_index_header resp) /\
        m_short_plate_filename s = reply_short_plate_filename resp /\
        m_full_plate_filename s = reply_full_plate_filename resp /\
        m_write_queue s = []
  | Err e => create_index service UniqueQueueName url hdr = Err e
  end.
Proof.
  unfold create_index. destruct (parse_url url) as [addr|e]; [|reflexivity].
  destruct addr as [[[hostname port] routing_key] platefile_name].
  eexists; split; [reflexivity|]. repeat split.
Qed.

(** ** Calls *)

(** X3: a public call changes only the write queue and the requests
    sent: the connection, the cached header, the platefile id and the
    file names are left as they were. *)
Theorem X3_run_call_frame service call s :
  snd (run_call service call s) =
  set_sent (sent (snd (run_call service call s)))
           (set_write_queue (m_write_queue (snd (run_call service call s))) s).
Proof.
  destruct (run_call_frame_aux service call s) as (q & l & E). rewrite E.
  destruct s; reflexivity.
Qed.

(** X4: in every state a public call can observe, the platefile id is
    the one of the cached header, and every queued update carries it. *)
Theorem X4_platefile_id_invariant service UniqueQueueName s :
  reachable service UniqueQueueName s ->
  m_platefile_id s = platefile_id (m_index_header s) /\
  Forall (fun u => wu_platefile_id u = m_platefile_id s) (m_write_queue s).
Proof.
  induction 1 as [url s Hopen|url hdr s Hcreate|call s _ [IH1 IH2]].
  - unfold open_index in Hopen. destruct (parse_url url) as [addr|]; [|discriminate].
    destruct addr as [[[hostname port] routing_key] platefile_name].
    injection Hopen as <-. split; [reflexivity|constructor].
  - unfold create_index in Hcreate. destruct (parse_url url) as [addr|]; [|discriminate].
    destruct addr as [[[hostname port] routing_key] platefile_name].
    injection Hcreate as <-. split; [reflexivity|constructor].
  - rewrite (X3_run_call_frame service call s). cbn [m_platefile_id m_index_header
      set_sent set_write_queue m_write_queue].
    split; [exact IH1|].
    destruct (own_request (m_platefile_id s) call) as [req|] eqn:E.
    + destruct (run_call_spec service call s req E) as [_ ->].
      destruct (flushes_first call); [constructor|exact IH2].
    + destruct call; try discriminate. cbn [run_call]. rewrite write_update_spec. cbv zeta.
      destruct (10 <=? _)%nat; simpl; [constructor|].
      apply Forall_app; split; [exact IH2|]. repeat constructor.
Qed.

Lemma X4_platefile_id_invariant_witness :
  reachable demo_service plain_queue_name demo_two_queued /\
  m_platefile_id demo_two_queued = platefile_id (m_index_header demo_two_queued) /\
  Forall (fun u => wu_platefile_id u = m_platefile_id demo_two_queued) (m_write_queue demo_two_queued).
Proof.
  assert (H : reachable demo_service plain_queue_name demo_two_queued).
  { apply reach_call, reach_call.
    apply (reach_open demo_service plain_queue_name "pf://myexchange/foo.plate").
    vm_compute. reflexivity. }
  split; [exact H|]. apply (X4_platefile_id_invariant _ _ _ H).
Defined.

(** X5: over any sequence of public calls, the updates carried by the
    batches sent, followed by those still queued, are the ones already
    there followed by the updates passed to [write_update], in call
    order: no update is lost, duplicated or reordered. *)
Theorem X5_run_calls_conserve_updates service calls s :
  batched (sent (snd (run_calls service calls s))) ++ m_write_queue (snd (run_calls service calls s)) =
  batched (sent s) ++ m_write_queue s ++ enqueued (m_platefile_id s) calls.
Proof. apply run_calls_conserves. Qed.

(** X6: on a client just opened, any sequence of public calls followed
    by the destructor sends, in its batches, exactly the updates passed
    to [write_update], each once and in call order. *)
Theorem X6_destroy_sends_every_update service UniqueQueueName url s0 calls :
  open_index service UniqueQueueName url = Ok s0 ->
  batched (sent (snd (destroy service (snd (run_calls service calls s0))))) =
  enqueued (m_platefile_id s0) calls.
Proof.
  intros Hopen.
  assert (Hs0 : batched (sent s0) = [] /\ m_write_queue s0 = []).
  { unfold open_index in Hopen. destruct (parse_url url) as [addr|]; [|discriminate].
    destruct addr as [[[hostname port] routing_key] platefile_name].
    injection Hopen as <-. split; reflexivity. }
  destruct Hs0 as [Hb Hq].
  destruct (run_calls_conserves service calls s0) as [C _].
  unfold destroy. rewrite flush_spec. cbn [snd sent set_sent set_write_queue].
  rewrite batched_app. unfold batched at 2. simpl. rewrite app_nil_r.
  rewrite C, Hb, Hq. reflexivity.
Qed.

Lemma X6_destroy_sends_every_update_witness :
  open_index null_service plain_queue_name "pf://myexchange/foo.plate" = Ok example_opened /\
  batched (sent (snd (destroy null_service
    (snd (run_calls null_service
       [CWriteUpdate example_tile default_record; CNumLevels;
        CWriteRequest 100; CWriteUpdate example_tile default_record] example_opened))))) =
  enqueued (m_platefile_id example_opened)
       [CWriteUpdate example_tile default_record; CNumLevels;
        CWriteRequest 100; CWriteUpdate example_tile default_record].
Proof.
  assert (H : open_index null_service plain_queue_name "pf://myexchange/foo.plate" = Ok example_opened)
    by (vm_compute; reflexivity).
  split; [exact H|]. apply (X6_destroy_sends_every_update _ _ _ _ _ H).
Defined.

(** X7: after its open or create request, a client never sends another
    session request: in every observable state the requests sent start
    with exactly one open or create request. *)
Theorem X7_single_session_request service UniqueQueueName s :
  reachable service UniqueQueueName s ->
  exists first rest, sent s = first :: rest /\ is_session_request first = true /\
    Forall (fun req => is_session_request req = false) rest.
Proof.
  induction 1 as [url s Hopen|url hdr s Hcreate|call s _ (first & rest & E & H1 & H2)].
  - unfold open_index in Hopen. destruct (parse_url url) as [addr|]; [|discriminate].
    destruct addr as [[[hostname port] routing_key] platefile_name].
    injection Hopen as <-. do 2 eexists. split; [reflexivity|]. split; [reflexivity|constructor].
  - unfold create_index in Hcreate. destruct (parse_url url) as [addr|]; [|discriminate].
    destruct addr as [[[hostname port] routing_key] platefile_name].
    injection Hcreate as <-. do 2 eexists. split; [reflexivity|]. split; [reflexivity|constructor].
  - destruct (run_call_sent_suffix service call s) as (extra & -> & Hx).
    exists first, (rest ++ extra). rewrite E. split; [reflexivity|].
    split; [exact H1|]. apply Forall_app; split; assumption.
Qed.

Lemma X7_single_session_request_witness :
  reachable demo_service plain_queue_name demo_after_calls /\
  exists first rest, sent demo_after_calls = first :: rest /\ is_session_request first = true /\
    Forall (fun req => is_session_request req = false) rest.
Proof.
  assert (H : reachable demo_service plain_queue_name demo_after_calls).
  { apply reach_call, reach_call, reach_call, reach_call.
    apply (reach_open demo_service plain_queue_name "pf://myexchange/foo.plate").
    vm_compute. reflexivity. }
  split; [exact H|]. apply (X7_single_session_request _ _ _ H).
Defined.

(** X8: starting from an empty queue, [n] consecutive [write_update]
    calls send [n / 10] requests, each a [MultiWriteUpdate] of exactly 10
    updates; these batches followed by what stays queued are the [n]
    updates in call order (so [n mod 10] stay queued). *)
Theorem X8_write_updates_batches service us s :
  m_write_queue s = [] ->
  exists batches,
    sent (snd (write_updates service us s)) = sent s ++ map IndexMultiWriteUpdate batches /\
    length batches = (length us / 10)%nat /\
    Forall (fun b => length b = 10%nat) batches /\
    concat batches ++ m_write_queue (snd (write_updates service us s)) =
      map (mk_update (m_platefile_id s)) us.
Proof.
  intros Hq.
  remember (length us) as n eqn:Hn. revert us s Hq Hn.
  induction n as [n IH] using (well_founded_induction lt_wf); intros us s Hq Hn.
  destruct (Nat.lt_ge_cases n 10) as [Hlt|Hge].
  - exists []. rewrite write_updates_below by (rewrite Hq; simpl; lia).
    rewrite Hq. cbn [snd sent set_write_queue m_write_queue map concat app length].
    rewrite Nat.div_small by lia.
    split; [rewrite app_nil_r; reflexivity|].
    split; [reflexivity|]. split; [constructor|reflexivity].
  - rewrite <- (firstn_skipn 10 us), write_updates_app.
    assert (H10 : length (firstn 10 us) = 10%nat) by (rewrite length_firstn; lia).
    rewrite (write_updates_ten service (firstn 10 us) s Hq H10). cbn [snd].
    set (s1 := set_sent _ s).
    assert (Hq1 : m_write_queue s1 = []) by exact Hq.
    assert (Hlen : length (skipn 10 us) = (n - 10)%nat) by (rewrite length_skipn; lia).
    destruct (IH (n - 10)%nat ltac:(lia) (skipn 10 us) s1 Hq1 (eq_sym Hlen))
      as (bs & E1 & E2 & E3 & E4).
    exists (map (mk_update (m_platefile_id s)) (firstn 10 us) :: bs).
    rewrite E1. cbn [s1 sent set_sent]. rewrite <- app_assoc.
    split; [reflexivity|]. split.
    + assert (Hd : (n / 10 = (n - 10) / 10 + 1)%nat).
      { replace n with ((n - 10) + 1 * 10)%nat at 1 by lia. apply Nat.div_add. lia. }
      cbn [length]. rewrite E2, Hd. lia.
    + split; [constructor; [rewrite length_map; exact H10|exact E3]|].
      cbn [concat]. rewrite <- app_assoc, E4, map_app. reflexivity.
Qed.

Lemma X8_write_updates_batches_witness :
  m_write_queue example_client = [] /\
  exists batches,
    sent (snd (write_updates null_service (ten_updates ++ ten_updates ++ [(example_tile, default_record)])
                 example_client)) = sent example_client ++ map IndexMultiWriteUpdate batches /\
    length batches = (length (ten_updates ++ ten_updates ++ [(example_tile, default_record)]) / 10)%nat /\
    Forall (fun b => length b = 10%nat) batches /\
    concat batches ++ m_write_queue (snd (write_updates null_service
                 (ten_updates ++ ten_updates ++ [(example_tile, default_record)]) example_client)) =
      map (mk_update (m_platefile_id example_client))
          (ten_updates ++ ten_updates ++ [(example_tile, default_record)]).
Proof.
  split; [reflexivity|]. apply X8_write_updates_batches. reflexivity.
Defined.

(** X9: when the reply to a multi-read has at least as many records as
    transaction ids, [multi_read_request] returns one pair per id, in the
    reply's order, each paired with the record at the same position. The
    reply is the service's answer after the flush. *)
Theorem X9_multi_read_request_result service c r l b e s :
  (length (reply_transaction_ids (multi_read_reply service c r l b e s))
     <= length (reply_index_records (multi_read_reply service c r l b e s)))%nat ->
  map fst (fst (multi_read_request service c r l b e s))
    = reply_transaction_ids (multi_read_reply service c r l b e s) /\
  map snd (fst (multi_read_request service c r l b e s))
    = firstn (length (reply_transaction_ids (multi_read_reply service c r l b e s)))
             (reply_index_records (multi_read_reply service c r l b e s)).
Proof.
  intros Hle. unfold multi_read_reply in *.
  unfold multi_read_request, bind, get, ret, rpc.
  rewrite flush_spec. cbn [fst snd sent set_sent set_write_queue m_platefile_id].
  destruct (multi_read_pairs
    (reply_index_records (service (sent s ++ [IndexMultiWriteUpdate (m_write_queue s)])
                            (IndexMultiReadRequest (m_platefile_id s) c r l b e)))
    (reply_transaction_ids (service (sent s ++ [IndexMultiWriteUpdate (m_write_queue s)])
                            (IndexMultiReadRequest (m_platefile_id s) c r l b e))) 0)
    as [H1 H2].
  split; [exact H1|]. rewrite H2. apply map_nth_seq. exact Hle.
Qed.

Lemma X9_multi_read_request_result_witness :
  (length (reply_transaction_ids (multi_read_reply demo_service 1 2 3 0 9 example_client_one))
     <= length (reply_index_records (multi_read_reply demo_service 1 2 3 0 9 example_client_one)))%nat /\
  map fst (fst (multi_read_request demo_service 1 2 3 0 9 example_client_one))
    = reply_transaction_ids (multi_read_reply demo_service 1 2 3 0 9 example_client_one) /\
  map snd (fst (multi_read_request demo_service 1 2 3 0 9 example_client_one))
    = firstn (length (reply_transaction_ids (multi_read_reply demo_service 1 2 3 0 9 example_client_one)))
             (reply_index_records (multi_read_reply demo_service 1 2 3 0 9 example_client_one)).
Proof.
  assert (H : (length (reply_transaction_ids (multi_read_reply demo_service 1 2 3 0 9 example_client_one))
     <= length (reply_index_records (multi_read_reply demo_service 1 2 3 0 9 example_client_one)))%nat)
    by (vm_compute; lia).
  split; [exact H|]. apply (X9_multi_read_request_result _ _ _ _ _ _ _ H).
Defined.

(** X10: whatever [parse_url] accepts starts with [pf://]; the routing
    key and the platefile name it returns contain no ['/'], the host
    contains neither ['/'] nor [':'], and the port is a 32-bit [int]. *)
Theorem X10_parse_url_outputs url hostname port exchange platefile_name :
  parse_url url = Ok (hostname, port, exchange, platefile_name) ->
  prefix "pf://" url = true /\
  Str.count "/" hostname = 0%nat /\ Str.count ":" hostname = 0%nat /\
  Str.count "/" exchange = 0%nat /\ Str.count "/" platefile_name = 0%nat /\
  Str.int_min <= port <= Str.int_max.
Proof.
  unfold parse_url. intros H.
  destruct (Str.find "pf://" url) as [[|k]|] eqn:Ef; try discriminate.
  apply find_zero_prefix in Ef. split; [exact Ef|].
  set (path := Str.substr_from 5 url) in H.
  assert (Tok : forall t, In t (Str.split "/"%char path) -> Str.count "/" t = 0%nat)
    by (intros t Ht; exact (proj1 (split_tokens _ _ _ Ht))).
  destruct (Str.split "/"%char path) as [|a [|b [|c [|d rest]]]] eqn:Es; try discriminate.
  - injection H as <- <- <- <-.
    repeat split; try reflexivity;
      [apply Tok; simpl; auto|apply Tok; simpl; auto|unfold Str.int_min|unfold Str.int_max]; lia.
  - assert (Ha : Str.count "/" a = 0%nat) by (apply Tok; simpl; auto).
    assert (Hb : Str.count "/" b = 0%nat) by (apply Tok; simpl; auto).
    assert (Hc : Str.count "/" c = 0%nat) by (apply Tok; simpl; auto).
    assert (Th : forall t, In t (Str.split ":"%char a) ->
              Str.count ":" t = 0%nat /\ Str.count "/" t = 0%nat).
    { intros t Ht. destruct (split_tokens _ _ _ Ht) as [T1 T2].
      split; [exact T1|]. specialize (T2 "/"%char). lia. }
    destruct (Str.split ":"%char a) as [|h [|p [|x y]]] eqn:Eh; try discriminate.
    + injection H as <- <- <- <-.
      destruct (Th h) as [T1 T2]; [simpl; auto|].
      repeat split; try assumption; [unfold Str.int_min|unfold Str.int_max]; lia.
    + destruct (Str.lexical_cast_int p) as [z|] eqn:Ez; [|discriminate].
      injection H as <- <- <- <-.
      destruct (Th h) as [T1 T2]; [simpl; auto|].
      repeat split; try assumption; apply lexical_cast_int_range in Ez; lia.
Qed.

Lemma X10_parse_url_outputs_witness :
  parse_url "pf://1.2.3.4:9999/myexchange/foo.plate"
    = Ok ("1.2.3.4"%string, 9999, "myexchange"%string, "foo.plate"%string) /\
  prefix "pf://" "pf://1.2.3.4:9999/myexchange/foo.plate" = true /\
  Str.count "/" "1.2.3.4" = 0%nat /\ Str.count ":" "1.2.3.4" = 0%nat /\
  Str.count "/" "myexchange" = 0%nat /\ Str.count "/" "foo.plate" = 0%nat /\
  Str.int_min <= 9999 <= Str.int_max.
Proof.
  assert (H : parse_url "pf://1.2.3.4:9999/myexchange/foo.plate"
    = Ok ("1.2.3.4"%string, 9999, "myexchange"%string, "foo.plate"%string)) by reflexivity.
  split; [exact H|]. apply (X10_parse_url_outputs _ _ _ _ _ H).
Defined.
